(** * dynamics365_client: the MicrosoftServicesClient of [dynamics365_client/main.py]

    A shallow embedding of the client class.  The two collaborators the class
    talks to (the [fast_azure_client] authentication provider and the
    [requests] HTTP transport) are an explicit environment; every call to
    them is recorded in a trace, so that "which requests were sent, and with
    what" is a statement about a list of events. *)

From stdpp Require Import gmap strings list.

#[local] Set Warnings "-register-all".

(** ** Python values *)

Module Py.

(** What [response.json()] can produce, and what a [json=] payload is. *)
Inductive json : Type :=
| JNull
| JBool (b : bool)
| JInt (n : Z)
| JFloat (literal : string)
| JString (s : string)
| JArray (items : list json)
| JObject (fields : gmap string json).

(** The name Python prints for the type of a value in an attribute error. *)
Definition type_name (j : json) : string :=
  match j with
  | JNull => "NoneType"
  | JBool _ => "bool"
  | JInt _ => "int"
  | JFloat _ => "float"
  | JString _ => "str"
  | JArray _ => "list"
  | JObject _ => "dict"
  end.

(** A header map: [str] keys, values that are a [str] or [None]. *)
Abbreviation dict := (gmap string (option string)).

(** Truthiness of an [Optional[str]]: [None] and [''] are falsy. *)
Definition truthy_str (s : option string) : bool :=
  match s with
  | None => false
  | Some "" => false
  | Some _ => true
  end.

(** Truthiness of an [Optional[bool]]: [None] and [False] are falsy. *)
Definition truthy_bool (b : option bool) : bool :=
  match b with
  | Some true => true
  | _ => false
  end.

(** [format] of an [Optional[str]] inside an f-string. *)
Definition fstr (s : option string) : string :=
  match s with
  | None => "None"
  | Some s => s
  end.

End Py.
Import Py.

(** ** The collaborators *)

(** [requests.Response], as far as the client looks at it: the status code and
    the outcome of [.json()] ([None]: the body is empty or is not JSON, and
    [.json()] raises [requests.exceptions.JSONDecodeError]). *)
Record Response : Type := mkResponse {
  status_code : Z;
  body_json : option json
}.

(** One call of [requests.request(method, url, json=.., headers=..)]. *)
Record Request : Type := mkRequest {
  req_method : string;
  req_url : string;
  req_json : option json;
  req_headers : dict
}.

(** [fast_azure_client.AuthClient(client_id, client_secret, tenant_id,
    scopes=.., mode=.., authority=..)]: the configuration the provider is
    set up with. *)
Record AuthClient : Type := mkAuthClient {
  ac_client_id : option string;
  ac_client_secret : option string;
  ac_tenant_id : option string;
  ac_scopes : list string;
  ac_mode : string;
  ac_authority : string
}.

Inductive exn : Type :=
| AttributeError (type_of_object attribute : string)
| HTTPError (response : Response)
| AuthenticationError (detail : string)
| ConnectionError (detail : string).

Inductive event : Type :=
| EvAuthUrl (client : AuthClient)
| EvAuthenticate (client : AuthClient) (email password : option string)
| EvHttp (rq : Request).

(** The outside world: what the provider and the transport answer, given
    everything that was sent before. *)
Record World : Type := mkWorld {
  provider_auth_url : list event → AuthClient → exn + string;
  provider_token : list event → AuthClient → option string → option string → exn + string;
  transport : list event → Request → exn + Response
}.

(** ** Computations: a trace of calls, and a result or an exception *)

Definition M (A : Type) : Type := list event → (exn + A) * list event.

#[global] Instance M_ret : MRet M := λ A (a : A) tr, (inr a, tr).

#[global] Instance M_bind : MBind M := λ A B (k : A → M B) (m : M A) tr,
  match m tr with
  | (inl e, tr') => (inl e, tr')
  | (inr a, tr') => k a tr'
  end.

(** A step that talks to nobody: it returns or raises, the trace is kept. *)
Definition lift {A : Type} (r : exn + A) : M A := λ tr, (r, tr).

(** Unfolds the plumbing of [M] in a goal. *)
Ltac run_monad :=
  unfold mbind, M_bind, mret, M_ret, lift; cbn beta iota.

(** [headers.update({key: value})]; [None] has no [update]. *)
Definition dict_update (headers : option dict) (key : string) (value : option string)
  : exn + dict :=
  match headers with
  | None => inl (AttributeError "NoneType" "update")
  | Some h => inr (<[key := value]> h)
  end.

(** [obj.get(key, default)]; only a [dict] has [get]. *)
Definition json_get (obj : json) (key : string) (default : json) : exn + json :=
  match obj with
  | JObject fields => inr (from_option id default (fields !! key))
  | _ => inl (AttributeError (type_name obj) "get")
  end.

(** [response.raise_for_status()]: [requests] raises [HTTPError] for the
    client errors 400..499 and the server errors 500..599, and for nothing
    else. *)
Definition raise_for_status (response : Response) : exn + unit :=
  if bool_decide (400 ≤ status_code response < 600)%Z
  then inl (HTTPError response)
  else inr tt.

(** ** The client *)

(** The attributes [__init__] stores. *)
Record MicrosoftServicesClient : Type := mkClient {
  disable_token_refresh : option bool;
  environment_url : string;
  client_secret : option string;
  client_id : option string;
  tenant_id : option string;
  email : option string;
  password : option string;
  access_token : option string
}.

Definition __init__ (environment_url : string)
    (access_token client_id client_secret tenant_id email password : option string)
    (disable_token_refresh : option bool) : MicrosoftServicesClient :=
  {| disable_token_refresh := disable_token_refresh;
     environment_url := environment_url;
     client_secret := client_secret;
     client_id := client_id;
     tenant_id := tenant_id;
     email := email;
     password := password;
     access_token := access_token |}.

(** Lines 124-132: the f-string [{environment_url}api/data/v9.0/{item}]. *)
Definition _generate_base_url (self : MicrosoftServicesClient) (item : string) : string :=
  environment_url self +:+ "api/data/v9.0/" +:+ item.

(** The object line 120 substitutes when the body does not decode. *)
Definition placeholder : json :=
  JObject {[ "value" := JString "request successful" ]}.

Section Client.

Context (w : World).

Definition generate_auth_url (client : AuthClient) : M string :=
  λ tr, (provider_auth_url w tr client, tr ++ [EvAuthUrl client]).

Definition authenticate_email_password (client : AuthClient)
    (email password : option string) : M string :=
  λ tr, (provider_token w tr client email password,
         tr ++ [EvAuthenticate client email password]).

Definition requests_request (method url : string) (json : option json)
    (headers : dict) : M Response :=
  λ tr, let rq := mkRequest method url json headers in
        (transport w tr rq, tr ++ [EvHttp rq]).

(** [requests.get(url, headers=..)] is [request("get", url, headers=..)]. *)
Definition requests_get (url : string) (headers : dict) : M Response :=
  requests_request "get" url None headers.

(** Lines 134-153.  Setting up the [AuthClient] builds the configuration the
    provider is later called with; the call that can fail is the one that
    asks for the consent URL or for the token. *)
Definition _generate_user_token (self : MicrosoftServicesClient)
    (return_auth_url : bool) : M string :=
  let scopes := [environment_url self +:+ "user_impersonation"] in
  let client :=
    mkAuthClient (client_id self) (client_secret self) (tenant_id self)
                 scopes "b2c" "https://login.microsoftonline.com/organizations" in
  if return_auth_url then generate_auth_url client
  else
    token ← authenticate_email_password client (email self) (password self);
    mret token.

(** Lines 94-98 of [_make_request]: the value bound to [access_token]. *)
Definition resolve_access_token (self : MicrosoftServicesClient) : M (option string) :=
  if negb (truthy_bool (disable_token_refresh self))
  then token ← _generate_user_token self false; mret (Some token)
  else mret (access_token self).

(** Lines 83-122; [headers] defaults to [None]. *)
Definition _make_request (self : MicrosoftServicesClient) (path method : string)
    (payload : option json) (headers : option dict) : M json :=
  access_token ← resolve_access_token self;
  headers ← lift (dict_update headers "Authorization" access_token);
  let url := _generate_base_url self path in
  response ←
    (if String.eqb method "get"
     then requests_get url headers
     else requests_request method url payload headers);
  lift (raise_for_status response);;
  let json_response :=
    match body_json response with
    | Some parsed => parsed
    | None => placeholder
    end in
  lift (json_get json_response "value" json_response).

(** Lines 47-48 of [get]: the rebinding of [item]. *)
Definition get_item (item : string) (item_id : option string) : string :=
  if truthy_str item_id then item +:+ "(" +:+ fstr item_id +:+ ")" else item.

Definition get (self : MicrosoftServicesClient) (item : string)
    (item_id : option string) : M json :=
  _make_request self (get_item item item_id) "get" None None.

Definition create (self : MicrosoftServicesClient) (item : string)
    (payload : json) : M json :=
  _make_request self item "post" (Some payload) None.

Definition update (self : MicrosoftServicesClient) (item item_id : string)
    (payload : json) : M json :=
  _make_request self (item +:+ "(" +:+ item_id +:+ ")") "patch" (Some payload) None.

Definition delete (self : MicrosoftServicesClient) (item item_id : string) : M json :=
  _make_request self (item +:+ "(" +:+ item_id +:+ ")") "delete" None None.

End Client.

(** ** Calls of the public interface, and what a trace shows *)

(** One call of one of the four public methods. *)
Inductive operation : Type :=
| OpGet (item : string) (item_id : option string)
| OpCreate (item : string) (payload : json)
| OpUpdate (item item_id : string) (payload : json)
| OpDelete (item item_id : string).

Definition call (w : World) (self : MicrosoftServicesClient) (op : operation) : M json :=
  match op with
  | OpGet item item_id => get w self item item_id
  | OpCreate item payload => create w self item payload
  | OpUpdate item item_id payload => update w self item item_id payload
  | OpDelete item item_id => delete w self item item_id
  end.

(** A caller that makes the calls one after the other on the same client,
    carrying on after a call that raised. *)
Definition session (w : World) (self : MicrosoftServicesClient) (ops : list operation)
    (tr : list event) : list event :=
  fold_left (λ tr op, (call w self op tr).2) ops tr.

(** The requests handed to the HTTP transport, oldest first. *)
Definition http_requests (tr : list event) : list Request :=
  omap (λ ev, match ev with EvHttp rq => Some rq | _ => None end) tr.

(** The calls made to the authentication provider, oldest first. *)
Definition provider_calls (tr : list event) : list event :=
  omap (λ ev, match ev with EvHttp _ => None | _ => Some ev end) tr.

(** The provider call [_generate_user_token] makes for this client. *)
Definition configured_auth_client (self : MicrosoftServicesClient) : AuthClient :=
  mkAuthClient (client_id self) (client_secret self) (tenant_id self)
               [environment_url self +:+ "user_impersonation"] "b2c"
               "https://login.microsoftonline.com/organizations".

Definition configured_authentication (self : MicrosoftServicesClient) : event :=
  EvAuthenticate (configured_auth_client self) (email self) (password self).

(** The request lines 101-110 build from a headers map and a token. *)
Definition dispatched_request (self : MicrosoftServicesClient) (path method : string)
    (payload : option json) (headers : dict) (token : option string) : Request :=
  mkRequest method (_generate_base_url self path)
            (if String.eqb method "get" then None else payload)
            (<["Authorization" := token]> headers).

(** ** Sample clients and worlds *)

Definition crm : string := "https://org.crm.dynamics.com/".

(** A client with a static token and token refresh switched off. *)
Definition static_client : MicrosoftServicesClient :=
  __init__ crm (Some "static-token") None None None None None (Some true).

(** A client with a full credential set and token refresh left on. *)
Definition refreshing_client : MicrosoftServicesClient :=
  __init__ crm None (Some "app-id") (Some "app-secret") (Some "tenant")
           (Some "user@example.com") (Some "hunter2") (Some false).

(** A world whose provider hands out ["fresh-token"] and whose transport
    answers every request with the same response. *)
Definition answering (response : Response) : World :=
  mkWorld (λ _ _, inr "https://login.example/consent")
          (λ _ _ _ _, inr "fresh-token")
          (λ _ _, inr response).

(** A world whose provider rejects the credentials. *)
Definition rejecting (response : Response) : World :=
  mkWorld (λ _ _, inr "https://login.example/consent")
          (λ _ _ _ _, inl (AuthenticationError "invalid_grant"))
          (λ _ _, inr response).

Definition no_content : Response := mkResponse 204 None.
Definition not_found : Response := mkResponse 404 None.
Definition not_modified : Response := mkResponse 304 None.

Definition account : json := JObject {[ "name" := JString "Contoso" ]}.

Definition accounts_page : Response :=
  mkResponse 200 (Some (JObject {[ "value" := JArray [account] ]})).

Definition whoami : Response :=
  mkResponse 200 (Some (JObject {[ "UserId" := JString "42" ]})).


(** [self.access_token = token], every other attribute kept. *)
Definition set_access_token (token : option string) (self : MicrosoftServicesClient)
  : MicrosoftServicesClient :=
  {| disable_token_refresh := disable_token_refresh self;
     environment_url := environment_url self;
     client_secret := client_secret self;
     client_id := client_id self;
     tenant_id := tenant_id self;
     email := email self;
     password := password self;
     access_token := token |}.

(** A client built the short way: the URL and a token, every default kept,
    [disable_token_refresh=False] among them. *)
Definition token_only_client : MicrosoftServicesClient :=
  __init__ crm (Some "static-token") None None None None None (Some false).

(** A world whose transport cannot reach the server. *)
Definition unreachable : World :=
  mkWorld (λ _ _, inr "https://login.example/consent")
          (λ _ _ _ _, inr "fresh-token")
          (λ _ _, inl (ConnectionError "name resolution failed")).

(** An answer whose body is valid JSON but not an object. *)
Definition bare_list : Response := mkResponse 200 (Some (JArray [account])).

(** Headers a caller might pass, an [Authorization] of its own among them. *)
Definition caller_headers : dict :=
  {[ "Authorization" := Some "Bearer mine"; "Prefer" := Some "return=representation" ]}.

(** * Properties *)

(** ** How a trace is read *)

Lemma http_requests_app (tr1 tr2 : list event) :
  http_requests (tr1 ++ tr2) = http_requests tr1 ++ http_requests tr2.
Proof. unfold http_requests. apply omap_app. Qed.

Lemma provider_calls_app (tr1 tr2 : list event) :
  provider_calls (tr1 ++ tr2) = provider_calls tr1 ++ provider_calls tr2.
Proof. unfold provider_calls. apply omap_app. Qed.

(** ** The shared dispatch, step by step *)

Section Dispatch.

Context (w : World) (self : MicrosoftServicesClient).

(** With refresh switched off the static token is used and nothing is sent. *)
Lemma resolve_access_token_static (tr : list event) :
  truthy_bool (disable_token_refresh self) = true →
  resolve_access_token w self tr = (inr (access_token self), tr).
Proof. intros Hoff. unfold resolve_access_token. rewrite Hoff. reflexivity. Qed.

(** Otherwise the provider is asked, once, with the configured values. *)
Lemma resolve_access_token_refresh (tr : list event) :
  truthy_bool (disable_token_refresh self) = false →
  resolve_access_token w self tr =
    (match provider_token w tr (configured_auth_client self) (email self) (password self) with
     | inl e => inl e
     | inr token => inr (Some token)
     end,
     tr ++ [configured_authentication self]).
Proof.
  intros Hon. unfold resolve_access_token. rewrite Hon. cbn [negb].
  unfold _generate_user_token, authenticate_email_password. run_monad.
  fold (configured_auth_client self). fold (configured_authentication self).
  destruct (provider_token w tr _ _ _); reflexivity.
Qed.

(** Token resolution only ever appends provider calls to the trace. *)
Lemma resolve_access_token_trace (tr : list event) :
  (resolve_access_token w self tr).2 =
    tr ++ (if truthy_bool (disable_token_refresh self) then []
           else [configured_authentication self]).
Proof.
  destruct (truthy_bool (disable_token_refresh self)) eqn:Hflag.
  - rewrite resolve_access_token_static by done. cbn. by rewrite app_nil_r.
  - rewrite resolve_access_token_refresh by done. reflexivity.
Qed.

(** The whole of [_make_request], read off line by line. *)
Lemma make_request_unfold (path method : string) (payload : option json)
    (headers : option dict) (tr : list event) :
  _make_request w self path method payload headers tr =
    match resolve_access_token w self tr with
    | (inl e, tr1) => (inl e, tr1)
    | (inr token, tr1) =>
        match headers with
        | None => (inl (AttributeError "NoneType" "update"), tr1)
        | Some h =>
            let rq := dispatched_request self path method payload h token in
            (match transport w tr1 rq with
             | inl e => inl e
             | inr response =>
                 match raise_for_status response with
                 | inl e => inl e
                 | inr _ =>
                     let body := default placeholder (body_json response) in
                     json_get body "value" body
                 end
             end,
             tr1 ++ [EvHttp rq])
        end
    end.
Proof.
  unfold _make_request. run_monad.
  destruct (resolve_access_token w self tr) as [[e|token] tr1]; [reflexivity|].
  destruct headers as [h|]; cbn [dict_update]; [|reflexivity].
  unfold dispatched_request.
  destruct (String.eqb method "get") eqn:Hget.
  - apply String.eqb_eq in Hget. subst method.
    unfold requests_get, requests_request. cbn.
    destruct (transport w tr1 _) as [e|response]; [reflexivity|].
    destruct (raise_for_status response); [reflexivity|].
    destruct (body_json response); reflexivity.
  - unfold requests_request. cbn.
    destruct (transport w tr1 _) as [e|response]; [reflexivity|].
    destruct (raise_for_status response); [reflexivity|].
    destruct (body_json response); reflexivity.
Qed.

(** Without a headers map the call stops at [headers.update]: the outcome
    is an exception and the trace holds the provider call at most. *)
Lemma make_request_without_headers (path method : string) (payload : option json)
    (tr : list event) :
  _make_request w self path method payload None tr =
    if truthy_bool (disable_token_refresh self)
    then (inl (AttributeError "NoneType" "update"), tr)
    else (inl (match provider_token w tr (configured_auth_client self)
                                    (email self) (password self) with
               | inl e => e
               | inr _ => AttributeError "NoneType" "update"
               end),
          tr ++ [configured_authentication self]).
Proof.
  rewrite make_request_unfold.
  destruct (truthy_bool (disable_token_refresh self)) eqn:Hflag.
  - by rewrite resolve_access_token_static.
  - rewrite resolve_access_token_refresh by done.
    destruct (provider_token w tr _ _ _); reflexivity.
Qed.

(** Every public method is [_make_request] without a headers map. *)
Lemma call_is_make_request (op : operation) :
  ∃ path method payload,
    call w self op = _make_request w self path method payload None.
Proof. destruct op; cbn [call]; unfold get, create, update, delete; eauto. Qed.

(** The provider calls of one dispatch, whatever the headers argument. *)
Lemma make_request_provider_calls (path method : string) (payload : option json)
    (headers : option dict) (tr : list event) :
  provider_calls (_make_request w self path method payload headers tr).2 =
    provider_calls tr ++
    (if truthy_bool (disable_token_refresh self) then []
     else [configured_authentication self]).
Proof.
  rewrite make_request_unfold.
  pose proof (resolve_access_token_trace tr) as Htr.
  destruct (resolve_access_token w self tr) as [[e|token] tr1]; cbn [snd] in *; subst tr1.
  - rewrite provider_calls_app. by destruct (truthy_bool _).
  - destruct headers as [h|]; cbn [snd].
    + rewrite !provider_calls_app. cbn. rewrite app_nil_r.
      by destruct (truthy_bool _).
    + rewrite provider_calls_app. by destruct (truthy_bool _).
Qed.

(** The HTTP requests of one dispatch: none, or the one built from the
    arguments. *)
Lemma make_request_http_requests (path method : string) (payload : option json)
    (headers : option dict) (tr : list event) :
  ∃ sent,
    http_requests (_make_request w self path method payload headers tr).2 =
      http_requests tr ++ sent ∧
    (sent = [] ∨
     ∃ h token, headers = Some h ∧
                sent = [dispatched_request self path method payload h token]).
Proof.
  rewrite make_request_unfold.
  pose proof (resolve_access_token_trace tr) as Htr.
  assert (Hquiet : http_requests (resolve_access_token w self tr).2 = http_requests tr).
  { rewrite Htr, http_requests_app. destruct (truthy_bool _); cbn; by rewrite app_nil_r. }
  destruct (resolve_access_token w self tr) as [[e|token] tr1]; cbn [snd] in *.
  - exists []. rewrite app_nil_r. auto.
  - destruct headers as [h|]; cbn [snd].
    + eexists. rewrite http_requests_app, Hquiet. cbn. split; [reflexivity|]. eauto.
    + exists []. rewrite app_nil_r. auto.
Qed.

End Dispatch.

(** ** Strings *)

Lemma string_app_nil_r (s : string) : s +:+ "" = s.
Proof.
  induction s as [|c s IH]; [reflexivity|].
  change (String c s +:+ "") with (String c (s +:+ "")). by rewrite IH.
Qed.

Lemma string_length_app (s t : string) :
  String.length (s +:+ t) = String.length s + String.length t.
Proof.
  induction s as [|c s IH]; [reflexivity|].
  change (String c s +:+ t) with (String c (s +:+ t)). cbn. by rewrite IH.
Qed.

(** ** Every public call stops before the transport *)

(** C1: every call of [get], [create], [update] or [delete] enters
    [_make_request] without a headers map; [headers.update] on [None] is an
    attribute error; so the call ends in an exception and hands nothing to the
    HTTP transport, whatever the client, the arguments and the world.  The
    exception is that attribute error, unless token refresh is on and the
    provider raised first, in which case it is the provider's. *)
Theorem public_call_raises_before_dispatch (w : World) (self : MicrosoftServicesClient)
    (op : operation) (tr : list event) :
  (∃ path method payload,
     call w self op = _make_request w self path method payload None) ∧
  (∀ token, dict_update None "Authorization" token
            = inl (AttributeError "NoneType" "update")) ∧
  ∃ e sent,
    call w self op tr = (inl e, tr ++ sent) ∧
    http_requests sent = [] ∧
    (e = AttributeError "NoneType" "update" ∨
     (truthy_bool (disable_token_refresh self) = false ∧
      provider_token w tr (configured_auth_client self) (email self) (password self)
      = inl e)).
Proof.
  split; [apply call_is_make_request|]. split; [reflexivity|].
  destruct (call_is_make_request w self op) as (path & method & payload & ->).
  rewrite make_request_without_headers.
  destruct (truthy_bool (disable_token_refresh self)) eqn:Hflag.
  - exists (AttributeError "NoneType" "update"), [].
    rewrite app_nil_r. auto.
  - eexists _, [configured_authentication self].
    split; [reflexivity|]. split; [reflexivity|].
    destruct (provider_token w tr _ _ _) as [e|token]; auto.
Qed.

(** When token resolution gets through, the exception of a public call is the
    attribute error of [headers.update]. *)
Lemma public_call_attribute_error (w : World) (self : MicrosoftServicesClient)
    (op : operation) (tr tr1 : list event) (token : option string) :
  resolve_access_token w self tr = (inr token, tr1) →
  call w self op tr = (inl (AttributeError "NoneType" "update"), tr1).
Proof.
  intros Htok.
  destruct (call_is_make_request w self op) as (path & method & payload & ->).
  by rewrite make_request_unfold, Htok.
Qed.

(** ** Token refresh *)

(** C6: with token refresh left on, every public call invokes the
    authentication provider exactly once, set up with the configured client
    id, client secret and tenant id and asked for a token for the configured
    email and password; nothing is cached, so a run of calls makes as many
    provider calls as there are calls. *)
Theorem provider_called_once_per_call (w : World) (self : MicrosoftServicesClient)
    (ops : list operation) (tr : list event) :
  truthy_bool (disable_token_refresh self) = false →
  configured_authentication self
  = EvAuthenticate
      (mkAuthClient (client_id self) (client_secret self) (tenant_id self)
                    [environment_url self +:+ "user_impersonation"] "b2c"
                    "https://login.microsoftonline.com/organizations")
      (email self) (password self) ∧
  (∀ op tr0, provider_calls (call w self op tr0).2
             = provider_calls tr0 ++ [configured_authentication self]) ∧
  provider_calls (session w self ops tr)
  = provider_calls tr ++ replicate (length ops) (configured_authentication self).
Proof.
  intros Hon. split; [reflexivity|].
  assert (Hone : ∀ op tr0, provider_calls (call w self op tr0).2
                           = provider_calls tr0 ++ [configured_authentication self]).
  { intros op tr0.
    destruct (call_is_make_request w self op) as (path & method & payload & ->).
    by rewrite make_request_provider_calls, Hon. }
  split; [exact Hone|].
  revert tr. induction ops as [|op ops IH]; intros tr.
  - cbn. by rewrite app_nil_r.
  - cbn [session fold_left length replicate].
    fold (session w self ops (call w self op tr).2).
    rewrite IH, Hone, <- app_assoc. reflexivity.
Qed.

Lemma provider_called_once_per_call_witness :
  truthy_bool (disable_token_refresh refreshing_client) = false ∧
  provider_calls
    (session (answering no_content) refreshing_client
             [OpGet "accounts" None; OpCreate "accounts" account; OpDelete "accounts" "7"] [])
  = replicate 3 (configured_authentication refreshing_client).
Proof.
  split; [reflexivity|].
  apply (provider_called_once_per_call (answering no_content) refreshing_client
           [OpGet "accounts" None; OpCreate "accounts" account; OpDelete "accounts" "7"] []).
  reflexivity.
Defined.

(** ** The request URL *)

(** C8: for every path the request URL is the configured environment URL,
    then the literal [api/data/v9.0/], then the path: nothing is inserted
    between them and nothing is normalised, and this is the URL of any request
    a dispatch for that path hands to the transport. *)
Theorem request_url_is_plain_concatenation (self : MicrosoftServicesClient) (p : string) :
  _generate_base_url self p = environment_url self +:+ "api/data/v9.0/" +:+ p ∧
  String.length (_generate_base_url self p)
  = String.length (environment_url self) + 14 + String.length p ∧
  ∀ w method payload headers tr, ∃ sent,
    http_requests (_make_request w self p method payload headers tr).2
    = http_requests tr ++ sent ∧
    Forall (λ rq, req_url rq = environment_url self +:+ "api/data/v9.0/" +:+ p) sent.
Proof.
  split; [reflexivity|]. split.
  - unfold _generate_base_url. rewrite !string_length_app. cbn. lia.
  - intros w method payload headers tr.
    destruct (make_request_http_requests w self p method payload headers tr)
      as (sent & Hsent & [->|(h & token & _ & ->)]).
    + exists []. split; [exact Hsent|constructor].
    + eexists. split; [exact Hsent|]. repeat constructor.
Qed.

(** No separator is supplied for an environment URL that lacks one. *)
Example base_url_without_trailing_slash :
  _generate_base_url (__init__ "https://org.crm.dynamics.com" None None None None None None None)
                     "accounts"
  = "https://org.crm.dynamics.comapi/data/v9.0/accounts".
Proof. reflexivity. Qed.

(** ** What the dispatch does with a response *)

Section Response.

Context (w : World) (self : MicrosoftServicesClient).
Context (path method : string) (payload : option json) (h : dict).
Context (tr tr1 : list event) (token : option string) (response : Response).

Local Abbreviation rq := (dispatched_request self path method payload h token).

Hypothesis Htoken : resolve_access_token w self tr = (inr token, tr1).
Hypothesis Hanswer : transport w tr1 rq = inr response.

(** Given a headers map, exactly one request goes out, after the token. *)
Lemma dispatch_sends_one_request :
  (_make_request w self path method payload (Some h) tr).2 = tr1 ++ [EvHttp rq] ∧
  http_requests (tr1 ++ [EvHttp rq]) = http_requests tr ++ [rq].
Proof using Htoken.
  rewrite make_request_unfold, Htoken. split; [reflexivity|].
  pose proof (resolve_access_token_trace w self tr) as Htr.
  rewrite Htoken in Htr. cbn [snd] in Htr. rewrite Htr.
  rewrite !http_requests_app. destruct (truthy_bool _); cbn; by rewrite ?app_nil_r.
Qed.

(** A 4xx or 5xx answer is raised as an HTTP error holding the response. *)
Lemma dispatch_error_status :
  (400 ≤ status_code response < 600)%Z →
  _make_request w self path method payload (Some h) tr
  = (inl (HTTPError response), tr1 ++ [EvHttp rq]).
Proof using Htoken Hanswer.
  intros Hstatus. rewrite make_request_unfold, Htoken. cbn zeta. fold rq.
  rewrite Hanswer. unfold raise_for_status. by rewrite bool_decide_eq_true_2.
Qed.

(** Any other answer is decoded and unwrapped. *)
Lemma dispatch_other_status :
  ¬ (400 ≤ status_code response < 600)%Z →
  _make_request w self path method payload (Some h) tr
  = (let body := default placeholder (body_json response) in
     json_get body "value" body,
     tr1 ++ [EvHttp rq]).
Proof using Htoken Hanswer.
  intros Hstatus. rewrite make_request_unfold, Htoken. cbn zeta. fold rq.
  rewrite Hanswer. unfold raise_for_status. by rewrite bool_decide_eq_false_2.
Qed.

(** A body [{"value": X, ..}] is unwrapped to [X]. *)
Lemma dispatch_unwraps_value (fields : gmap string json) (x : json) :
  ¬ (400 ≤ status_code response < 600)%Z →
  body_json response = Some (JObject fields) →
  fields !! "value" = Some x →
  _make_request w self path method payload (Some h) tr = (inr x, tr1 ++ [EvHttp rq]).
Proof using Htoken Hanswer.
  intros Hstatus Hbody Hvalue. rewrite dispatch_other_status by done.
  rewrite Hbody. cbn. by rewrite Hvalue.
Qed.

(** An object without a ["value"] key is returned whole. *)
Lemma dispatch_returns_whole_object (fields : gmap string json) :
  ¬ (400 ≤ status_code response < 600)%Z →
  body_json response = Some (JObject fields) →
  fields !! "value" = None →
  _make_request w self path method payload (Some h) tr
  = (inr (JObject fields), tr1 ++ [EvHttp rq]).
Proof using Htoken Hanswer.
  intros Hstatus Hbody Hvalue. rewrite dispatch_other_status by done.
  rewrite Hbody. cbn. by rewrite Hvalue.
Qed.

(** A body that decodes to something other than an object has no [get]. *)
Lemma dispatch_body_not_an_object (parsed : json) :
  ¬ (400 ≤ status_code response < 600)%Z →
  body_json response = Some parsed →
  (∀ fields, parsed ≠ JObject fields) →
  _make_request w self path method payload (Some h) tr
  = (inl (AttributeError (type_name parsed) "get"), tr1 ++ [EvHttp rq]).
Proof using Htoken Hanswer.
  intros Hstatus Hbody Hshape. rewrite dispatch_other_status by done.
  rewrite Hbody. cbn. destruct parsed; try reflexivity. by destruct (Hshape fields).
Qed.

End Response.

(** With refresh switched off, a dispatch that is given a headers map sends
    the static token as it is under [Authorization], keeps the caller's other
    headers, and does not go to the provider. *)
Lemma dispatch_static_token_verbatim (w : World) (self : MicrosoftServicesClient)
    (path method : string) (payload : option json) (h : dict) (tr : list event) :
  truthy_bool (disable_token_refresh self) = true →
  ∃ rq,
    (_make_request w self path method payload (Some h) tr).2 = tr ++ [EvHttp rq] ∧
    req_headers rq !! "Authorization" = Some (access_token self) ∧
    (∀ key, key ≠ "Authorization" → req_headers rq !! key = h !! key) ∧
    provider_calls (tr ++ [EvHttp rq]) = provider_calls tr.
Proof.
  intros Hoff. eexists. split.
  - eapply dispatch_sends_one_request. by apply resolve_access_token_static.
  - split; [apply lookup_insert_eq|]. split.
    + intros key Hkey. cbn. by rewrite lookup_insert_ne.
    + rewrite provider_calls_app. cbn. by rewrite app_nil_r.
Qed.

(** A dispatch for [post] that is given a headers map sends the payload as the
    JSON body, to the URL of the item. *)
Lemma dispatch_post_sends_payload (w : World) (self : MicrosoftServicesClient)
    (item : string) (payload : json) (h : dict) (tr : list event) :
  ∃ sent,
    http_requests (_make_request w self item "post" (Some payload) (Some h) tr).2
    = http_requests tr ++ sent ∧
    Forall (λ rq, req_method rq = "post" ∧
                  req_url rq = _generate_base_url self item ∧
                  req_json rq = Some payload) sent.
Proof.
  destruct (make_request_http_requests w self item "post" (Some payload) (Some h) tr)
    as (sent & Hsent & [->|(h' & token & _ & ->)]).
  - exists []. split; [exact Hsent|constructor].
  - eexists. split; [exact Hsent|]. repeat constructor.
Qed.


(** ** The path [get] chooses *)

Lemma get_item_with_id (item i : string) :
  i ≠ "" → get_item item (Some i) = item +:+ "(" +:+ i +:+ ")".
Proof. intros Hi. unfold get_item. destruct i; [done|reflexivity]. Qed.

Lemma get_item_without_id (item : string) :
  get_item item None = item ∧ get_item item (Some "") = item.
Proof. split; reflexivity. Qed.

(** The id segment is there exactly when the id is truthy. *)
Lemma get_item_appends_iff (item : string) (item_id : option string) :
  get_item item item_id ≠ item ↔ truthy_str item_id = true.
Proof.
  unfold get_item. destruct (truthy_str item_id); split; try done.
  intros _ Heq. rewrite <- (string_app_nil_r item) in Heq at 2.
  apply (inj (String.app item)) in Heq. discriminate Heq.
Qed.

(** [get] never asks for [item()]. *)
Lemma get_item_never_empty_parentheses (item : string) (item_id : option string) :
  get_item item item_id ≠ item +:+ "()".
Proof.
  unfold get_item. destruct item_id as [[|c i]|]; cbn [truthy_str fstr].
  - intros Heq. rewrite <- (string_app_nil_r item) in Heq at 1.
    apply (inj (String.app item)) in Heq. discriminate Heq.
  - intros Heq. apply (inj (String.app item)) in Heq.
    injection Heq as Hc Hrest. destruct i; discriminate Hrest.
  - intros Heq. rewrite <- (string_app_nil_r item) in Heq at 1.
    apply (inj (String.app item)) in Heq. discriminate Heq.
Qed.

(** ** A body that does not decode *)

(** C2, as amended: when a dispatch has sent its request and the answer has
    no 4xx or 5xx status and a body that is empty or not JSON, no decoding
    error is raised: the object [{"value": "request successful"}] stands in
    for the body and is unwrapped like any body, so the call returns the
    string ["request successful"]. *)
Theorem undecodable_body_yields_placeholder_value (w : World)
    (self : MicrosoftServicesClient) (path method : string) (payload : option json)
    (h : dict) (tr tr1 : list event) (token : option string) (response : Response) :
  resolve_access_token w self tr = (inr token, tr1) →
  transport w tr1 (dispatched_request self path method payload h token) = inr response →
  ¬ (400 ≤ status_code response < 600)%Z →
  body_json response = None →
  _make_request w self path method payload (Some h) tr
  = (inr (JString "request successful"),
     tr1 ++ [EvHttp (dispatched_request self path method payload h token)]).
Proof.
  intros Htoken Hanswer Hstatus Hbody.
  rewrite (dispatch_other_status w self path method payload h tr tr1 token response)
    by done.
  rewrite Hbody. reflexivity.
Qed.

Lemma undecodable_body_yields_placeholder_value_witness :
  body_json no_content = None ∧
  _make_request (answering no_content) refreshing_client "accounts" "post"
                (Some account) (Some ∅) []
  = (inr (JString "request successful"),
     [configured_authentication refreshing_client] ++
     [EvHttp (dispatched_request refreshing_client "accounts" "post" (Some account) ∅
                                 (Some "fresh-token"))]).
Proof.
  split; [reflexivity|].
  apply (undecodable_body_yields_placeholder_value
           (answering no_content) refreshing_client "accounts" "post" (Some account) ∅
           [] [configured_authentication refreshing_client] (Some "fresh-token") no_content).
  - reflexivity.
  - reflexivity.
  - cbn. lia.
  - reflexivity.
Defined.

(** C2 fails as stated: [create] on an answer with an empty body raises at
    [headers.update] instead of returning; a dispatch that is given a headers
    map returns the string inside the placeholder, not the placeholder object;
    and on an empty body that comes with status 404 it raises the HTTP error. *)
Lemma placeholder_object_is_not_returned :
  create (answering no_content) static_client "accounts" account []
  = (inl (AttributeError "NoneType" "update"), []) ∧
  (_make_request (answering no_content) static_client "accounts" "post"
                 (Some account) (Some ∅) []).1
  = inr (JString "request successful") ∧
  (_make_request (answering no_content) static_client "accounts" "post"
                 (Some account) (Some ∅) []).1
  ≠ inr placeholder ∧
  body_json not_found = None ∧
  (_make_request (answering not_found) static_client "accounts" "post"
                 (Some account) (Some ∅) []).1
  = inl (HTTPError not_found).
Proof.
  split; [reflexivity|]. split; [reflexivity|]. split.
  - intros Heq. vm_compute in Heq. discriminate Heq.
  - split; reflexivity.
Qed.

(** ** Error statuses *)

(** [get] on a decoded body ends in a value or in an attribute error, never in
    an HTTP error. *)
Lemma json_get_is_no_http_error (obj : json) (key : string) (default : json)
    (r : Response) :
  json_get obj key default ≠ inl (HTTPError r).
Proof. destruct obj; discriminate. Qed.

(** C7, as amended: when a dispatch has sent its request and the answer has a
    4xx or 5xx status (404 and 500 among them), the call raises an HTTP error
    that carries the response, status included, and that request is the only
    one the call has handed to the transport: nothing is retried.  An answer
    with any other status, the non-2xx statuses 1xx and 3xx included, is not
    raised: its body is decoded and unwrapped like that of a success, after
    the same single request. *)
Theorem error_status_is_raised_after_one_request (w : World)
    (self : MicrosoftServicesClient) (path method : string) (payload : option json)
    (h : dict) (tr tr1 : list event) (token : option string) (response : Response) :
  resolve_access_token w self tr = (inr token, tr1) →
  transport w tr1 (dispatched_request self path method payload h token) = inr response →
  ((400 ≤ status_code response < 600)%Z →
   _make_request w self path method payload (Some h) tr
   = (inl (HTTPError response),
      tr1 ++ [EvHttp (dispatched_request self path method payload h token)])) ∧
  (¬ (400 ≤ status_code response < 600)%Z →
   _make_request w self path method payload (Some h) tr
   = (json_get (default placeholder (body_json response)) "value"
               (default placeholder (body_json response)),
      tr1 ++ [EvHttp (dispatched_request self path method payload h token)]) ∧
   ∀ r, (_make_request w self path method payload (Some h) tr).1 ≠ inl (HTTPError r)) ∧
  ((100 ≤ status_code response < 200)%Z ∨ (300 ≤ status_code response < 400)%Z →
   ∀ r, (_make_request w self path method payload (Some h) tr).1 ≠ inl (HTTPError r)) ∧
  http_requests (tr1 ++ [EvHttp (dispatched_request self path method payload h token)])
  = http_requests tr ++ [dispatched_request self path method payload h token].
Proof.
  intros Htoken Hanswer.
  assert (Hother : ¬ (400 ≤ status_code response < 600)%Z →
    _make_request w self path method payload (Some h) tr
    = (json_get (default placeholder (body_json response)) "value"
                (default placeholder (body_json response)),
       tr1 ++ [EvHttp (dispatched_request self path method payload h token)]) ∧
    ∀ r, (_make_request w self path method payload (Some h) tr).1 ≠ inl (HTTPError r)).
  { intros Hstatus.
    rewrite (dispatch_other_status w self path method payload h tr tr1 token response)
      by done.
    split; [reflexivity|]. intros r. cbn [fst]. apply json_get_is_no_http_error. }
  split; [|split; [exact Hother|split]].
  - intros Hstatus. by apply dispatch_error_status.
  - intros Hstatus. apply Hother. lia.
  - by apply (dispatch_sends_one_request w self path method payload h tr tr1 token).
Qed.

Lemma error_status_is_raised_after_one_request_witness :
  (status_code not_found = 404%Z ∧
   _make_request (answering not_found) static_client "accounts(7)" "delete" None (Some ∅) []
   = (inl (HTTPError not_found),
      [] ++ [EvHttp (dispatched_request static_client "accounts(7)" "delete" None ∅
                                        (Some "static-token"))]) ∧
   http_requests
     ([] ++ [EvHttp (dispatched_request static_client "accounts(7)" "delete" None ∅
                                        (Some "static-token"))])
   = http_requests [] ++
     [dispatched_request static_client "accounts(7)" "delete" None ∅ (Some "static-token")]) ∧
  (status_code not_modified = 304%Z ∧
   ∀ r, (_make_request (answering not_modified) static_client "accounts(7)" "get" None
                       (Some ∅) []).1 ≠ inl (HTTPError r)).
Proof.
  split.
  - destruct (error_status_is_raised_after_one_request
                (answering not_found) static_client "accounts(7)" "delete" None ∅
                [] [] (Some "static-token") not_found eq_refl eq_refl)
      as (Hraised & _ & _ & Hone).
    split; [reflexivity|]. split; [|exact Hone].
    apply Hraised. cbn. lia.
  - destruct (error_status_is_raised_after_one_request
                (answering not_modified) static_client "accounts(7)" "get" None ∅
                [] [] (Some "static-token") not_modified eq_refl eq_refl)
      as (_ & _ & Hquiet & _).
    split; [reflexivity|]. apply Hquiet. right. cbn. lia.
Defined.

(** C7 fails as stated: [get] on a 404 answer raises the attribute error of
    [headers.update], with no request sent and no status carried, and a
    dispatch that is given a headers map returns normally on the non-2xx
    status 304. *)
Lemma non_2xx_status_is_not_always_raised :
  get (answering not_found) static_client "accounts" (Some "7") []
  = (inl (AttributeError "NoneType" "update"), []) ∧
  ¬ (200 ≤ status_code not_modified < 300)%Z ∧
  (_make_request (answering not_modified) static_client "accounts(7)" "get"
                 None (Some ∅) []).1
  = inr (JString "request successful").
Proof.
  split; [reflexivity|]. split; [cbn; lia|reflexivity].
Qed.

(** ** The request of [get] *)




(** ** Public calls that never reach the transport *)

(** C3, at the failing calls: where the server would answer
    [{"value": [account]}] the call [get("accounts")] does not return the list,
    and where it would answer an object without ["value"] the call does not
    return that object; both raise at [headers.update] and send nothing. *)
Theorem get_does_not_return_the_body :
  body_json accounts_page = Some (JObject {[ "value" := JArray [account] ]}) ∧
  get (answering accounts_page) static_client "accounts" None []
  = (inl (AttributeError "NoneType" "update"), []) ∧
  body_json whoami = Some (JObject {[ "UserId" := JString "42" ]}) ∧
  get (answering whoami) static_client "WhoAmI" None []
  = (inl (AttributeError "NoneType" "update"), []).
Proof. repeat split. Qed.

(** C5, at the failing call: with refresh switched off, [delete] makes no
    provider call, but no request carries the static token either: the call
    raises at [headers.update] with an empty trace. *)
Theorem static_token_is_never_sent :
  truthy_bool (disable_token_refresh static_client) = true ∧
  delete (answering no_content) static_client "accounts" "7" []
  = (inl (AttributeError "NoneType" "update"), []) ∧
  http_requests (delete (answering no_content) static_client "accounts" "7" []).2 = [].
Proof. repeat split. Qed.

(** C9, at the failing call: [create] asks the provider for a token and then
    raises at [headers.update]; no POST is handed to the transport. *)
Theorem create_does_not_post :
  create (answering no_content) refreshing_client "accounts" account []
  = (inl (AttributeError "NoneType" "update"),
     [configured_authentication refreshing_client]) ∧
  http_requests (create (answering no_content) refreshing_client "accounts" account []).2
  = [].
Proof. repeat split. Qed.

(** C10, at the failing call: [get] with the empty id chooses the path of the
    bare item and behaves as [get] without an id, yet what both do is raise at
    [headers.update] after the provider call; no GET is sent. *)
Theorem get_with_empty_id_does_not_send :
  get_item "contacts" (Some "") = "contacts" ∧
  get (answering accounts_page) refreshing_client "contacts" (Some "") []
  = get (answering accounts_page) refreshing_client "contacts" None [] ∧
  get (answering accounts_page) refreshing_client "contacts" (Some "") []
  = (inl (AttributeError "NoneType" "update"),
     [configured_authentication refreshing_client]) ∧
  http_requests (get (answering accounts_page) refreshing_client "contacts" (Some "") []).2
  = [].
Proof. repeat split. Qed.

(** * Further properties of the dispatch *)

Lemma string_app_inj_r (s t u : string) : s +:+ u = t +:+ u → s = t.
Proof.
  intros Heq.
  assert (Hlen : String.length s = String.length t).
  { apply (f_equal String.length) in Heq. rewrite !string_length_app in Heq. lia. }
  revert t Heq Hlen. induction s as [|c s IH]; intros [|d t] Heq Hlen;
    try discriminate Hlen; [reflexivity|].
  change (String c (s +:+ u) = String d (t +:+ u)) in Heq.
  injection Heq as -> Heq. f_equal. apply IH; [exact Heq|]. cbn in Hlen. lia.
Qed.

(** What one public call adds to the trace. *)
Lemma call_trace (w : World) (self : MicrosoftServicesClient) (op : operation)
    (tr : list event) :
  (call w self op tr).2 =
    tr ++ (if truthy_bool (disable_token_refresh self) then []
           else [configured_authentication self]).
Proof.
  destruct (call_is_make_request w self op) as (path & method & payload & ->).
  rewrite make_request_without_headers.
  destruct (truthy_bool _); cbn; by rewrite ?app_nil_r.
Qed.

(** ** Failures of the collaborators *)

(** X1: when token refresh is on and the provider raises, the dispatch ends
    with the provider's exception, unchanged, after that one provider call;
    nothing is sent to the API, whether or not a headers map was given. *)
Theorem provider_failure_aborts_dispatch (w : World) (self : MicrosoftServicesClient)
    (path method : string) (payload : option json) (headers : option dict)
    (tr : list event) (e : exn) :
  truthy_bool (disable_token_refresh self) = false →
  provider_token w tr (configured_auth_client self) (email self) (password self) = inl e →
  _make_request w self path method payload headers tr
  = (inl e, tr ++ [configured_authentication self]) ∧
  http_requests (tr ++ [configured_authentication self]) = http_requests tr.
Proof.
  intros Hon Hfail. split.
  - rewrite make_request_unfold, resolve_access_token_refresh by done.
    by rewrite Hfail.
  - rewrite http_requests_app. cbn. by rewrite app_nil_r.
Qed.

Lemma provider_failure_aborts_dispatch_witness :
  _make_request (rejecting accounts_page) refreshing_client "accounts" "get" None
                (Some ∅) []
  = (inl (AuthenticationError "invalid_grant"),
     [] ++ [configured_authentication refreshing_client]) ∧
  http_requests ([] ++ [configured_authentication refreshing_client]) = http_requests [].
Proof.
  apply (provider_failure_aborts_dispatch (rejecting accounts_page) refreshing_client
           "accounts" "get" None (Some ∅) [] (AuthenticationError "invalid_grant")).
  - reflexivity.
  - reflexivity.
Defined.

(** X2: when the transport itself raises (no answer at all), the dispatch
    ends with that exception, unchanged, and the request that failed is the
    only one it has sent: it is not tried again. *)
Theorem transport_failure_propagates (w : World) (self : MicrosoftServicesClient)
    (path method : string) (payload : option json) (h : dict)
    (tr tr1 : list event) (token : option string) (e : exn) :
  resolve_access_token w self tr = (inr token, tr1) →
  transport w tr1 (dispatched_request self path method payload h token) = inl e →
  _make_request w self path method payload (Some h) tr
  = (inl e, tr1 ++ [EvHttp (dispatched_request self path method payload h token)]) ∧
  http_requests (tr1 ++ [EvHttp (dispatched_request self path method payload h token)])
  = http_requests tr ++ [dispatched_request self path method payload h token].
Proof.
  intros Htoken Hfail. split.
  - rewrite make_request_unfold, Htoken. cbn zeta. by rewrite Hfail.
  - by apply (dispatch_sends_one_request w self path method payload h tr tr1 token).
Qed.

Lemma transport_failure_propagates_witness :
  _make_request unreachable static_client "accounts" "post" (Some account) (Some ∅) []
  = (inl (ConnectionError "name resolution failed"),
     [] ++ [EvHttp (dispatched_request static_client "accounts" "post" (Some account) ∅
                                       (Some "static-token"))]) ∧
  http_requests
    ([] ++ [EvHttp (dispatched_request static_client "accounts" "post" (Some account) ∅
                                       (Some "static-token"))])
  = http_requests [] ++
    [dispatched_request static_client "accounts" "post" (Some account) ∅
                        (Some "static-token")].
Proof.
  apply (transport_failure_propagates unreachable static_client "accounts" "post"
           (Some account) ∅ [] [] (Some "static-token")
           (ConnectionError "name resolution failed")).
  - reflexivity.
  - reflexivity.
Defined.

(** ** The shape of a dispatch *)

(** X3: whatever the arguments and the world, one dispatch adds to the trace
    at most one provider call (the configured token request, never the
    consent-URL request, and only when refresh is on) followed by at most one
    HTTP request (the one built from the arguments, and only when a headers map
    was given). *)
Theorem dispatch_trace_shape (w : World) (self : MicrosoftServicesClient)
    (path method : string) (payload : option json) (headers : option dict)
    (tr : list event) :
  ∃ auth sent,
    (_make_request w self path method payload headers tr).2
    = tr ++ auth ++ (EvHttp <$> sent) ∧
    auth = (if truthy_bool (disable_token_refresh self) then []
            else [configured_authentication self]) ∧
    (sent = [] ∨
     ∃ h token, headers = Some h ∧
                sent = [dispatched_request self path method payload h token]).
Proof.
  rewrite make_request_unfold.
  pose proof (resolve_access_token_trace w self tr) as Htr.
  destruct (resolve_access_token w self tr) as [[e|token] tr1]; cbn [snd] in *.
  - eexists _, []. split; [|split; [reflexivity|by left]].
    cbn. by rewrite app_nil_r.
  - destruct headers as [h|]; cbn [snd].
    + eexists _, [_]. split; [|split; [reflexivity|right; eauto]].
      rewrite Htr, <- app_assoc. reflexivity.
    + eexists _, []. split; [|split; [reflexivity|by left]].
      cbn. by rewrite app_nil_r.
Qed.

(** ** Headers and tokens *)

(** X4: the resolved token replaces whatever [Authorization] the caller's
    headers held; every other caller header goes out unchanged, and no other
    header is added. *)
Theorem authorization_overrides_caller_header (w : World)
    (self : MicrosoftServicesClient) (path method : string) (payload : option json)
    (h : dict) (tr tr1 : list event) (token : option string) :
  resolve_access_token w self tr = (inr token, tr1) →
  ∃ rq,
    (_make_request w self path method payload (Some h) tr).2 = tr1 ++ [EvHttp rq] ∧
    req_headers rq !! "Authorization" = Some token ∧
    (∀ key, key ≠ "Authorization" → req_headers rq !! key = h !! key) ∧
    dom (req_headers rq) = {[ "Authorization" ]} ∪ dom h.
Proof.
  intros Htoken. eexists. split.
  - by eapply dispatch_sends_one_request.
  - cbn. split; [apply lookup_insert_eq|]. split.
    + intros key Hkey. by rewrite lookup_insert_ne.
    + apply dom_insert_L.
Qed.

Lemma authorization_overrides_caller_header_witness :
  caller_headers !! "Authorization" = Some (Some "Bearer mine") ∧
  ∃ rq,
    (_make_request (answering accounts_page) static_client "accounts" "get" None
                   (Some caller_headers) []).2 = [] ++ [EvHttp rq] ∧
    req_headers rq !! "Authorization" = Some (Some "static-token") ∧
    (∀ key, key ≠ "Authorization" → req_headers rq !! key = caller_headers !! key) ∧
    dom (req_headers rq) = {[ "Authorization" ]} ∪ dom caller_headers.
Proof.
  split; [reflexivity|].
  apply (authorization_overrides_caller_header (answering accounts_page) static_client
           "accounts" "get" None caller_headers [] [] (Some "static-token")).
  reflexivity.
Defined.

(** X5: with token refresh on and a provider that answers, the dispatch first
    asks the provider and then sends its request with exactly the token the
    provider has just returned under [Authorization]. *)
Theorem fresh_token_is_sent (w : World) (self : MicrosoftServicesClient)
    (path method : string) (payload : option json) (h : dict) (tr : list event)
    (fresh : string) :
  truthy_bool (disable_token_refresh self) = false →
  provider_token w tr (configured_auth_client self) (email self) (password self)
  = inr fresh →
  (_make_request w self path method payload (Some h) tr).2
  = tr ++ [configured_authentication self;
           EvHttp (dispatched_request self path method payload h (Some fresh))] ∧
  req_headers (dispatched_request self path method payload h (Some fresh))
    !! "Authorization" = Some (Some fresh).
Proof.
  intros Hon Hfresh. split; [|apply lookup_insert_eq].
  rewrite make_request_unfold, resolve_access_token_refresh by done.
  rewrite Hfresh. cbn [snd]. by rewrite <- app_assoc.
Qed.

Lemma fresh_token_is_sent_witness :
  (_make_request (answering no_content) refreshing_client "accounts(7)" "patch"
                 (Some account) (Some ∅) []).2
  = [] ++ [configured_authentication refreshing_client;
           EvHttp (dispatched_request refreshing_client "accounts(7)" "patch"
                                      (Some account) ∅ (Some "fresh-token"))] ∧
  req_headers (dispatched_request refreshing_client "accounts(7)" "patch"
                                  (Some account) ∅ (Some "fresh-token"))
    !! "Authorization" = Some (Some "fresh-token").
Proof.
  apply (fresh_token_is_sent (answering no_content) refreshing_client "accounts(7)"
           "patch" (Some account) ∅ [] "fresh-token").
  - reflexivity.
  - reflexivity.
Defined.

(** X6: while token refresh is on (the default), the [access_token] the
    client was built with plays no part: replacing it by any other value
    changes neither the outcome nor the trace of a dispatch. *)
Theorem refresh_ignores_static_token (w : World) (self : MicrosoftServicesClient)
    (other : option string) (path method : string) (payload : option json)
    (headers : option dict) (tr : list event) :
  truthy_bool (disable_token_refresh self) = false →
  _make_request w (set_access_token other self) path method payload headers tr
  = _make_request w self path method payload headers tr.
Proof.
  intros Hon. rewrite !make_request_unfold.
  rewrite (resolve_access_token_refresh w (set_access_token other self)) by exact Hon.
  rewrite (resolve_access_token_refresh w self) by exact Hon.
  reflexivity.
Qed.

Lemma refresh_ignores_static_token_witness :
  access_token token_only_client = Some "static-token" ∧
  _make_request (answering accounts_page)
                (set_access_token (Some "another-token") token_only_client)
                "accounts" "get" None (Some ∅) []
  = _make_request (answering accounts_page) token_only_client
                  "accounts" "get" None (Some ∅) [].
Proof.
  split; [reflexivity|].
  apply (refresh_ignores_static_token (answering accounts_page) token_only_client
           (Some "another-token") "accounts" "get" None (Some ∅) []).
  reflexivity.
Defined.

(** X7: with token refresh off, the client id, client secret, tenant id, email
    and password play no part: two clients with the same environment URL and
    the same static token dispatch alike. *)
Theorem static_mode_ignores_credentials (w : World)
    (self1 self2 : MicrosoftServicesClient) (path method : string)
    (payload : option json) (headers : option dict) (tr : list event) :
  truthy_bool (disable_token_refresh self1) = true →
  truthy_bool (disable_token_refresh self2) = true →
  environment_url self1 = environment_url self2 →
  access_token self1 = access_token self2 →
  _make_request w self1 path method payload headers tr
  = _make_request w self2 path method payload headers tr.
Proof.
  intros Hoff1 Hoff2 Hurl Htoken. rewrite !make_request_unfold.
  rewrite !resolve_access_token_static by done.
  unfold dispatched_request, _generate_base_url. by rewrite Hurl, Htoken.
Qed.

Lemma static_mode_ignores_credentials_witness :
  client_id static_client ≠ client_id
    (__init__ crm (Some "static-token") (Some "app-id") (Some "app-secret") (Some "tenant")
              (Some "user@example.com") (Some "hunter2") (Some true)) ∧
  _make_request (answering whoami) static_client "WhoAmI" "get" None (Some ∅) []
  = _make_request (answering whoami)
      (__init__ crm (Some "static-token") (Some "app-id") (Some "app-secret") (Some "tenant")
                (Some "user@example.com") (Some "hunter2") (Some true))
      "WhoAmI" "get" None (Some ∅) [].
Proof.
  split; [discriminate|].
  apply (static_mode_ignores_credentials (answering whoami) static_client
           (__init__ crm (Some "static-token") (Some "app-id") (Some "app-secret")
                     (Some "tenant") (Some "user@example.com") (Some "hunter2") (Some true))
           "WhoAmI" "get" None (Some ∅) []); reflexivity.
Defined.

(** X8: [_generate_user_token], in either mode, makes exactly one provider
    call, set up with the configured client id, secret and tenant id and the
    single scope [environment_url + "user_impersonation"], and returns (or
    raises) what the provider answers; asked for the consent URL it does not
    pass the email or the password, and it never sends an HTTP request. *)
Theorem user_token_makes_one_provider_call (w : World) (self : MicrosoftServicesClient)
    (return_auth_url : bool) (tr : list event) :
  ac_scopes (configured_auth_client self) = [environment_url self +:+ "user_impersonation"] ∧
  _generate_user_token w self return_auth_url tr
  = (if return_auth_url
     then (provider_auth_url w tr (configured_auth_client self),
           tr ++ [EvAuthUrl (configured_auth_client self)])
     else (provider_token w tr (configured_auth_client self) (email self) (password self),
           tr ++ [EvAuthenticate (configured_auth_client self) (email self) (password self)])) ∧
  http_requests (_generate_user_token w self return_auth_url tr).2 = http_requests tr.
Proof.
  split; [reflexivity|].
  assert (Hrun : _generate_user_token w self return_auth_url tr
    = (if return_auth_url
       then (provider_auth_url w tr (configured_auth_client self),
             tr ++ [EvAuthUrl (configured_auth_client self)])
       else (provider_token w tr (configured_auth_client self) (email self) (password self),
             tr ++ [EvAuthenticate (configured_auth_client self) (email self)
                                   (password self)]))).
  { unfold _generate_user_token, generate_auth_url, authenticate_email_password.
    destruct return_auth_url; [reflexivity|]. run_monad.
    fold (configured_auth_client self).
    destruct (provider_token w tr _ _ _); reflexivity. }
  split; [exact Hrun|]. rewrite Hrun.
  destruct return_auth_url; cbn [snd]; rewrite http_requests_app; cbn;
    by rewrite app_nil_r.
Qed.

(** ** Method and body *)

(** X9: a dispatch for the method ["get"] ignores its payload: whatever
    payload it is given, outcome and trace are those of the dispatch without
    one. *)
Theorem get_method_ignores_payload (w : World) (self : MicrosoftServicesClient)
    (path : string) (payload : option json) (headers : option dict) (tr : list event) :
  _make_request w self path "get" payload headers tr
  = _make_request w self path "get" None headers tr.
Proof. rewrite !make_request_unfold. reflexivity. Qed.

(** X10: for every method other than the exact string ["get"] (so for
    ["GET"] too) the request carries that method, the URL of the path, the
    payload as the JSON body just as given, and the caller's headers with the
    token. *)
Theorem other_methods_send_payload (w : World) (self : MicrosoftServicesClient)
    (path method : string) (payload : option json) (h : dict)
    (tr tr1 : list event) (token : option string) :
  method ≠ "get" →
  resolve_access_token w self tr = (inr token, tr1) →
  (_make_request w self path method payload (Some h) tr).2
  = tr1 ++ [EvHttp (mkRequest method (_generate_base_url self path) payload
                              (<["Authorization" := token]> h))].
Proof.
  intros Hmethod Htoken. rewrite make_request_unfold, Htoken. cbn [snd].
  unfold dispatched_request.
  by rewrite (proj2 (String.eqb_neq method "get") Hmethod).
Qed.

Lemma other_methods_send_payload_witness :
  (_make_request (answering accounts_page) static_client "accounts" "GET"
                 (Some account) (Some ∅) []).2
  = [] ++ [EvHttp (mkRequest "GET" (_generate_base_url static_client "accounts")
                             (Some account)
                             (<["Authorization" := Some "static-token"]> ∅))].
Proof.
  apply (other_methods_send_payload (answering accounts_page) static_client "accounts"
           "GET" (Some account) ∅ [] [] (Some "static-token")).
  - discriminate.
  - reflexivity.
Defined.

(** ** What a dispatch returns *)

(** X11: a dispatch returns a value only if it was given a headers map, the
    token was resolved, its one request was answered, and that answer had no
    4xx or 5xx status; the value is then the unwrapped body of that answer. *)
Theorem returned_value_comes_from_an_answer (w : World) (self : MicrosoftServicesClient)
    (path method : string) (payload : option json) (headers : option dict)
    (tr tr' : list event) (v : json) :
  _make_request w self path method payload headers tr = (inr v, tr') →
  ∃ h token tr1 response,
    headers = Some h ∧
    resolve_access_token w self tr = (inr token, tr1) ∧
    tr' = tr1 ++ [EvHttp (dispatched_request self path method payload h token)] ∧
    transport w tr1 (dispatched_request self path method payload h token) = inr response ∧
    ¬ (400 ≤ status_code response < 600)%Z ∧
    json_get (default placeholder (body_json response)) "value"
             (default placeholder (body_json response)) = inr v.
Proof.
  rewrite make_request_unfold.
  destruct (resolve_access_token w self tr) as [[e|token] tr1]; [discriminate|].
  destruct headers as [h|]; [|discriminate].
  cbn zeta.
  destruct (transport w tr1 _) as [e|response] eqn:Hanswer; [discriminate|].
  unfold raise_for_status. case_bool_decide as Hstatus; [discriminate|].
  intros [= Hvalue <-]. exists h, token, tr1, response. auto 10.
Qed.

Lemma returned_value_comes_from_an_answer_witness :
  ∃ h token tr1 response,
    Some (∅ : dict) = Some h ∧
    resolve_access_token (answering accounts_page) static_client [] = (inr token, tr1) ∧
    [EvHttp (dispatched_request static_client "accounts" "get" None ∅ (Some "static-token"))]
    = tr1 ++ [EvHttp (dispatched_request static_client "accounts" "get" None h token)] ∧
    transport (answering accounts_page) tr1
              (dispatched_request static_client "accounts" "get" None h token)
    = inr response ∧
    ¬ (400 ≤ status_code response < 600)%Z ∧
    json_get (default placeholder (body_json response)) "value"
             (default placeholder (body_json response)) = inr (JArray [account]).
Proof.
  apply (returned_value_comes_from_an_answer (answering accounts_page) static_client
           "accounts" "get" None (Some ∅) []).
  reflexivity.
Defined.

(** X12: when the answer has no error status and its body decodes to an
    object, the dispatch returns the entry under ["value"] if the object has
    one, dropping every other field, and the whole object otherwise. *)
Theorem object_body_is_unwrapped (w : World) (self : MicrosoftServicesClient)
    (path method : string) (payload : option json) (h : dict)
    (tr tr1 : list event) (token : option string) (response : Response)
    (fields : gmap string json) :
  resolve_access_token w self tr = (inr token, tr1) →
  transport w tr1 (dispatched_request self path method payload h token) = inr response →
  ¬ (400 ≤ status_code response < 600)%Z →
  body_json response = Some (JObject fields) →
  (_make_request w self path method payload (Some h) tr).1
  = inr (match fields !! "value" with
         | Some x => x
         | None => JObject fields
         end).
Proof.
  intros Htoken Hanswer Hstatus Hbody.
  destruct (fields !! "value") as [x|] eqn:Hvalue.
  - by rewrite (dispatch_unwraps_value w self path method payload h tr tr1 token
                  response Htoken Hanswer fields x).
  - by rewrite (dispatch_returns_whole_object w self path method payload h tr tr1 token
                  response Htoken Hanswer fields).
Qed.

Lemma object_body_is_unwrapped_witness :
  (_make_request (answering accounts_page) static_client "accounts" "get" None
                 (Some ∅) []).1
  = inr (match ({[ "value" := JArray [account] ]} : gmap string json) !! "value" with
         | Some x => x
         | None => JObject {[ "value" := JArray [account] ]}
         end).
Proof.
  apply (object_body_is_unwrapped (answering accounts_page) static_client "accounts"
           "get" None ∅ [] [] (Some "static-token") accounts_page).
  - reflexivity.
  - reflexivity.
  - cbn. lia.
  - reflexivity.
Defined.

(** X13: when the answer has no error status and its body decodes to JSON
    that is not an object (a list, a string, a number, a boolean or [null]),
    the dispatch raises an attribute error for [get] on a value of that type,
    after the request has been sent. *)
Theorem non_object_body_raises (w : World) (self : MicrosoftServicesClient)
    (path method : string) (payload : option json) (h : dict)
    (tr tr1 : list event) (token : option string) (response : Response)
    (parsed : json) :
  resolve_access_token w self tr = (inr token, tr1) →
  transport w tr1 (dispatched_request self path method payload h token) = inr response →
  ¬ (400 ≤ status_code response < 600)%Z →
  body_json response = Some parsed →
  (∀ fields, parsed ≠ JObject fields) →
  _make_request w self path method payload (Some h) tr
  = (inl (AttributeError (type_name parsed) "get"),
     tr1 ++ [EvHttp (dispatched_request self path method payload h token)]) ∧
  type_name parsed ≠ "dict".
Proof.
  intros Htoken Hanswer Hstatus Hbody Hshape. split.
  - by apply (dispatch_body_not_an_object w self path method payload h tr tr1 token
                 response).
  - destruct parsed; try discriminate. by destruct (Hshape fields).
Qed.

Lemma non_object_body_raises_witness :
  _make_request (answering bare_list) static_client "accounts" "get" None (Some ∅) []
  = (inl (AttributeError (type_name (JArray [account])) "get"),
     [] ++ [EvHttp (dispatched_request static_client "accounts" "get" None ∅
                                       (Some "static-token"))]) ∧
  type_name (JArray [account]) ≠ "dict".
Proof.
  apply (non_object_body_raises (answering bare_list) static_client "accounts" "get"
           None ∅ [] [] (Some "static-token") bare_list (JArray [account])).
  - reflexivity.
  - reflexivity.
  - cbn. lia.
  - reflexivity.
  - discriminate.
Defined.

(** ** The public methods, as they behave *)

(** X14: on the same client, in the same world and from the same trace, any
    two public calls end alike: the operation, the item, the id and the payload
    have no effect on the outcome or on the trace. *)
Theorem public_calls_are_indistinguishable (w : World) (self : MicrosoftServicesClient)
    (op1 op2 : operation) (tr : list event) :
  call w self op1 tr = call w self op2 tr.
Proof.
  destruct (call_is_make_request w self op1) as (p1 & m1 & b1 & ->).
  destruct (call_is_make_request w self op2) as (p2 & m2 & b2 & ->).
  by rewrite !make_request_without_headers.
Qed.

(** X15: a run of public calls leaves in the trace one configured provider
    call per call when refresh is on, and nothing at all when it is off:
    no request ever goes to the API. *)
Theorem session_trace (w : World) (self : MicrosoftServicesClient)
    (ops : list operation) (tr : list event) :
  session w self ops tr
  = tr ++ replicate (if truthy_bool (disable_token_refresh self) then 0 else length ops)
                    (configured_authentication self) ∧
  http_requests (session w self ops tr) = http_requests tr.
Proof.
  assert (Hrun : ∀ tr0, session w self ops tr0
    = tr0 ++ replicate (if truthy_bool (disable_token_refresh self) then 0 else length ops)
                       (configured_authentication self)).
  { induction ops as [|op ops IH]; intros tr0.
    - cbn. destruct (truthy_bool _); cbn; by rewrite app_nil_r.
    - cbn [session fold_left]. fold (session w self ops (call w self op tr0).2).
      rewrite IH, call_trace.
      destruct (truthy_bool _); cbn; by rewrite <- ?app_assoc, ?app_nil_r. }
  split; [apply Hrun|].
  rewrite Hrun, http_requests_app.
  assert (Hquiet : ∀ n, http_requests (replicate n (configured_authentication self)) = []).
  { induction n as [|n IHn]; [reflexivity|exact IHn]. }
  by rewrite Hquiet, app_nil_r.
Qed.

(** ** Paths and URLs *)

(** X16: for one client, two paths give the same request URL only if they
    are the same path. *)
Theorem base_url_determines_path (self : MicrosoftServicesClient) (p q : string) :
  _generate_base_url self p = _generate_base_url self q ↔ p = q.
Proof.
  split; [|by intros ->].
  unfold _generate_base_url. intros Heq.
  apply (inj (String.app (environment_url self))) in Heq.
  by apply (inj (String.app "api/data/v9.0/")) in Heq.
Qed.

(** X17: the path [get] asks for is the bare item exactly when the id is
    [None] or the empty string, and is never the item followed by [()]. *)
Theorem get_path_has_segment_iff_id_truthy (item : string) (item_id : option string) :
  (get_item item item_id = item ↔ item_id = None ∨ item_id = Some "") ∧
  get_item item item_id ≠ item +:+ "()".
Proof.
  split; [|apply get_item_never_empty_parentheses].
  pose proof (get_item_appends_iff item item_id) as Hiff.
  destruct item_id as [[|c i]|]; cbn [truthy_str] in Hiff.
  - split; [auto|reflexivity].
  - split.
    + intros Heq. by destruct (proj2 Hiff eq_refl).
    + intros [|]; discriminate.
  - split; [auto|reflexivity].
Qed.

(** X18: for one item, two non-empty ids give the same [get] path only if
    they are the same id. *)
Theorem get_path_determines_id (item i j : string) :
  i ≠ "" → j ≠ "" →
  get_item item (Some i) = get_item item (Some j) → i = j.
Proof.
  intros Hi Hj. rewrite !get_item_with_id by done. intros Heq.
  apply (inj (String.app item)) in Heq.
  apply (inj (String.app "(")) in Heq.
  by apply string_app_inj_r in Heq.
Qed.

Lemma get_path_determines_id_witness :
  get_item "accounts" (Some "7") = "accounts(7)" ∧ "7" = "7".
Proof.
  split; [reflexivity|].
  apply (get_path_determines_id "accounts" "7" "7"); [discriminate|discriminate|reflexivity].
Defined.
